(** * pydf: rendering HTML to PDF through the wkhtmltopdf binary

    A shallow embedding of [pydf/wkhtmltopdf.py] ([generate_pdf],
    [execute_wk], [_string_execute], [get_version]) together with the part
    of the Python runtime it relies on: [str] and [bytes] methods, the UTF-8
    codec, [dict] insertion order, and [re.sub] on the one pattern the
    module uses.  Line numbers refer to [pydf/wkhtmltopdf.py]. *)

From Stdlib Require Import List ZArith NArith Lia Bool String Ascii Strings.Byte DecimalString.
Import ListNotations.
Local Open Scope string_scope.
Local Open Scope list_scope.

(** ** Data *)

(** A Python [str] is a sequence of code points, a [bytes] object a sequence
    of octets. *)
Definition str := list N.
Definition bytes := list byte.

Definition str_lit (s : string) : str := map N_of_ascii (list_ascii_of_string s).
Definition bytes_lit (s : string) : bytes := list_byte_of_string s.

(** The values a keyword argument of [generate_pdf] is documented to take:
    [None], a [bool], an [int] or a [str]. *)
Inductive pyval :=
| PNone
| PBool (b : bool)
| PInt (z : Z)
| PStr (s : str).

(** [subprocess.CompletedProcess], with the streams captured by [PIPE]. *)
Record CompletedProcess := {
  returncode : Z;
  stdout : bytes;
  stderr : bytes
}.

(** What [subprocess.run] does: the process runs to its end, or the call
    itself raises (a missing binary, a permission problem, ...). *)
Inductive Outcome :=
| Completed (p : CompletedProcess)
| Failed (class_name text : str).

(** Exceptions.  [RuntimeError] keeps the two values its message is
    formatted from (line 112): the argument list and the stripped error
    stream.  [OtherError] is what came out of [subprocess.run]. *)
Inductive exn :=
| ValueError (msg : str)
| RuntimeError (command : list str) (response : bytes)
| UnicodeEncodeError (position : nat)
| UnicodeDecodeError (position : nat)
| re_error (msg : string)
| IndexError (msg : string)
| OtherError (class_name : str) (text : str).

Inductive Result (A : Type) :=
| Ok (a : A)
| Raise (e : exn).
Arguments Ok {A} a.
Arguments Raise {A} e.

Definition rmap {A B} (f : A -> B) (r : Result A) : Result B :=
  match r with
  | Ok a => Ok (f a)
  | Raise e => Raise e
  end.

Definition rbind {A B} (r : Result A) (f : A -> Result B) : Result B :=
  match r with
  | Ok a => f a
  | Raise e => Raise e
  end.

(** ** The Python runtime *)

Module Py.
Local Open Scope N_scope.

Definition newline : N := 10.

(** [Py_UNICODE_ISSPACE]: what [str.lstrip()] removes. *)
Definition isspace (c : N) : bool :=
  ((0x09 <=? c) && (c <=? 0x0D)) || ((0x1C <=? c) && (c <=? 0x20))
  || (c =? 0x85) || (c =? 0xA0) || (c =? 0x1680)
  || ((0x2000 <=? c) && (c <=? 0x200A))
  || (c =? 0x2028) || (c =? 0x2029) || (c =? 0x202F) || (c =? 0x205F)
  || (c =? 0x3000).

Fixpoint dropwhile {A} (f : A -> bool) (l : list A) : list A :=
  match l with
  | [] => []
  | x :: l' => if f x then dropwhile f l' else l
  end.

(** [s.lstrip()] *)
Definition lstrip (s : str) : str := dropwhile isspace s.

(** [s.startswith(prefix)] *)
Fixpoint startswith (s prefix : str) : bool :=
  match prefix, s with
  | [], _ => true
  | p :: prefix', c :: s' => (c =? p) && startswith s' prefix'
  | _ :: _, [] => false
  end.

(** [s.startswith((p1, p2, ...))] *)
Definition startswith_any (s : str) (prefixes : list str) : bool :=
  existsb (startswith s) prefixes.

(** [s.replace(old, new)] for one-character [old] and [new]. *)
Definition replace (old new : N) (s : str) : str :=
  map (fun c => if c =? old then new else c) s.

(** [sep.join(parts)] *)
Fixpoint join (sep : str) (parts : list str) : str :=
  match parts with
  | [] => []
  | [p] => p
  | p :: rest => p ++ sep ++ join sep rest
  end.

(** [s.strip(chars)] *)
Definition strip_chars (chars : str) (s : str) : str :=
  let drop := dropwhile (fun c => existsb (N.eqb c) chars) in
  rev (drop (rev (drop s))).

(** [Py_ISSPACE]: what [bytes.strip()] removes. *)
Definition is_ascii_space (b : byte) : bool :=
  let n := Byte.to_N b in ((0x09 <=? n) && (n <=? 0x0D)) || (n =? 0x20).

(** [b.strip()] *)
Definition bytes_strip (b : bytes) : bytes :=
  rev (dropwhile is_ascii_space (rev (dropwhile is_ascii_space b))).

Definition bytes_eqb (a b : bytes) : bool :=
  if list_eq_dec Byte.byte_eq_dec a b then true else false.

Definition byte_of_N (n : N) : byte :=
  match Byte.of_N (n mod 256) with
  | Some b => b
  | None => x00
  end.

(** The UTF-8 form of one code point; surrogates have none, and no [str]
    holds a number above 0x10FFFF. *)
Definition utf8_char (c : N) : option bytes :=
  if c <? 0x80 then Some [byte_of_N c]
  else if c <? 0x800 then
    Some [byte_of_N (N.lor 0xC0 (N.shiftr c 6));
          byte_of_N (N.lor 0x80 (N.land c 0x3F))]
  else if (0xD800 <=? c) && (c <=? 0xDFFF) then None
  else if c <? 0x10000 then
    Some [byte_of_N (N.lor 0xE0 (N.shiftr c 12));
          byte_of_N (N.lor 0x80 (N.land (N.shiftr c 6) 0x3F));
          byte_of_N (N.lor 0x80 (N.land c 0x3F))]
  else if c <? 0x110000 then
    Some [byte_of_N (N.lor 0xF0 (N.shiftr c 18));
          byte_of_N (N.lor 0x80 (N.land (N.shiftr c 12) 0x3F));
          byte_of_N (N.lor 0x80 (N.land (N.shiftr c 6) 0x3F));
          byte_of_N (N.lor 0x80 (N.land c 0x3F))]
  else None.

Fixpoint encode_from (pos : nat) (s : str) : Result bytes :=
  match s with
  | [] => Ok []
  | c :: s' =>
    match utf8_char c with
    | Some bs => rmap (app bs) (encode_from (S pos) s')
    | None => Raise (UnicodeEncodeError pos)
    end
  end.

(** [s.encode()] *)
Definition encode (s : str) : Result bytes := encode_from 0%nat s.

Definition is_cont (b : byte) : bool :=
  let n := Byte.to_N b in (0x80 <=? n) && (n <=? 0xBF).

Definition in_range (lo hi : N) (b : byte) : bool :=
  let n := Byte.to_N b in (lo <=? n) && (n <=? hi).

Definition low6 (b : byte) : N := N.land (Byte.to_N b) 0x3F.

(** [b.decode()]: strict UTF-8, the shortest form only, no surrogates. *)
Fixpoint decode_from (pos : nat) (b : bytes) : Result str :=
  match b with
  | [] => Ok []
  | b0 :: r0 =>
    let n0 := Byte.to_N b0 in
    if n0 <? 0x80 then rmap (cons n0) (decode_from (1 + pos)%nat r0)
    else if in_range 0xC2 0xDF b0 then
      match r0 with
      | b1 :: r1 =>
        if is_cont b1
        then rmap (cons (N.lor (N.shiftl (N.land n0 0x1F) 6) (low6 b1)))
                  (decode_from (2 + pos)%nat r1)
        else Raise (UnicodeDecodeError pos)
      | _ => Raise (UnicodeDecodeError pos)
      end
    else if in_range 0xE0 0xEF b0 then
      match r0 with
      | b1 :: b2 :: r2 =>
        if (if n0 =? 0xE0 then in_range 0xA0 0xBF b1
            else if n0 =? 0xED then in_range 0x80 0x9F b1
            else is_cont b1) && is_cont b2
        then rmap (cons (N.lor (N.shiftl (N.land n0 0x0F) 12)
                           (N.lor (N.shiftl (low6 b1) 6) (low6 b2))))
                  (decode_from (3 + pos)%nat r2)
        else Raise (UnicodeDecodeError pos)
      | _ => Raise (UnicodeDecodeError pos)
      end
    else if in_range 0xF0 0xF4 b0 then
      match r0 with
      | b1 :: b2 :: b3 :: r3 =>
        if (if n0 =? 0xF0 then in_range 0x90 0xBF b1
            else if n0 =? 0xF4 then in_range 0x80 0x8F b1
            else is_cont b1) && is_cont b2 && is_cont b3
        then rmap (cons (N.lor (N.shiftl (N.land n0 0x07) 18)
                           (N.lor (N.shiftl (low6 b1) 12)
                              (N.lor (N.shiftl (low6 b2) 6) (low6 b3)))))
                  (decode_from (4 + pos)%nat r3)
        else Raise (UnicodeDecodeError pos)
      | _ => Raise (UnicodeDecodeError pos)
      end
    else Raise (UnicodeDecodeError pos)
  end.

Definition decode (b : bytes) : Result str := decode_from 0%nat b.

(** [str(value)] *)
Definition str_of (value : pyval) : str :=
  match value with
  | PNone => str_lit "None"
  | PBool true => str_lit "True"
  | PBool false => str_lit "False"
  | PInt z => str_lit (NilZero.string_of_int (Z.to_int z))
  | PStr s => s
  end.

(** [bool(value)], the test of [if value]. *)
Definition truthy (value : pyval) : bool :=
  match value with
  | PNone => false
  | PBool b => b
  | PInt z => negb (z =? 0)%Z
  | PStr s => match s with [] => false | _ => true end
  end.

(** [a == b].  A [bool] is an [int]: [False == 0] and [True == 1]. *)
Definition as_int (v : pyval) : option Z :=
  match v with
  | PBool b => Some (if b then 1 else 0)%Z
  | PInt z => Some z
  | _ => None
  end.

Definition eq (a b : pyval) : bool :=
  match a, b with
  | PNone, PNone => true
  | PStr s, PStr t => if list_eq_dec N.eq_dec s t then true else false
  | _, _ =>
    match as_int a, as_int b with
    | Some x, Some y => (x =? y)%Z
    | _, _ => false
    end
  end.

(** [value in {e1, e2, ...}]: equal values hash alike, so membership in a
    set of these values is equality with one of its elements. *)
Definition in_set (value : pyval) (elements : list pyval) : bool :=
  existsb (eq value) elements.

(** [value is True] *)
Definition is_True (value : pyval) : bool :=
  match value with
  | PBool true => true
  | _ => false
  end.

(** A [dict] with [str] keys, in insertion order. *)
Definition dict := list (str * pyval).

Definition str_eqb (a b : str) : bool :=
  if list_eq_dec N.eq_dec a b then true else false.

(** [d[key] = value]: an existing key keeps its place. *)
Fixpoint dict_set (d : dict) (key : str) (value : pyval) : dict :=
  match d with
  | [] => [(key, value)]
  | (k, v) :: d' =>
    if str_eqb k key then (k, value) :: d' else (k, v) :: dict_set d' key value
  end.

(** [d.update(other)] *)
Definition dict_update (d other : dict) : dict :=
  fold_left (fun acc kv => dict_set acc (fst kv) (snd kv)) other d.

End Py.

(** ** Regular expressions

    [re.sub(pattern, repl, string, count=1)] for a [bytes] pattern built
    from literal bytes and [.*] (no flags: [.] is any byte but a newline),
    which is all that line 124 needs. *)

Module Re.
Local Open Scope N_scope.

Definition NL : byte := x0a.
Definition BACKSLASH : byte := x5c.

Inductive item :=
| Lit (b : byte)
| DotStar.

Definition lits (s : string) : list item := map Lit (bytes_lit s).

(** Match [p] at the head of [s], as the backtracking engine does: [.*]
    first takes the longest run and gives bytes back one at a time.  The
    answer is what follows the match. *)
Fixpoint match_here (p : list item) (s : bytes) {struct p} : option bytes :=
  match p with
  | [] => Some s
  | Lit b :: p' =>
    match s with
    | c :: s' => if Byte.eqb c b then match_here p' s' else None
    | [] => None
    end
  | DotStar :: p' =>
    (fix star (s : bytes) : option bytes :=
       match s with
       | c :: s' =>
         if Byte.eqb c NL then match_here p' s
         else match star s' with
              | Some rest => Some rest
              | None => match_here p' s
              end
       | [] => match_here p' s
       end) s
  end.

(** The leftmost match: what precedes it, the match, what follows it. *)
Fixpoint search (p : list item) (s : bytes) : option (bytes * bytes * bytes) :=
  match match_here p s with
  | Some rest => Some ([], firstn (List.length s - List.length rest) s, rest)
  | None =>
    match s with
    | [] => None
    | c :: s' =>
      match search p s' with
      | Some (before, m, after) => Some (c :: before, m, after)
      | None => None
      end
    end
  end.

(** *** Replacement templates

    A replacement without a backslash is inserted as it is.  One with a
    backslash goes through the template parser ([parse_template]) before
    the search starts, so an ill-formed template raises even when the
    pattern matches nowhere.  The pattern has no groups: [\g<0>] is the
    only reference a template may make. *)

Inductive token :=
| Ch (b : byte)
| Esc (b : byte)
| Dangling.

(** The tokenizer reads one token ahead; a backslash that ends the
    template has nothing to pair with. *)
Fixpoint tokenize (s : bytes) : list token :=
  match s with
  | [] => []
  | b :: s' =>
    if Byte.eqb b BACKSLASH then
      match s' with
      | c :: s'' => Esc c :: tokenize s''
      | [] => [Dangling]
      end
    else Ch b :: tokenize s'
  end.

Inductive piece :=
| Literal (b : byte)
| Group0.

Definition is_digit (b : byte) : bool := Py.in_range 0x30 0x39 b.
Definition is_octdigit (b : byte) : bool := Py.in_range 0x30 0x37 b.
Definition digit_val (b : byte) : N := Byte.to_N b - 0x30.

Definition is_ascii_letter (b : byte) : bool :=
  Py.in_range 0x41 0x5A b || Py.in_range 0x61 0x7A b.

(** [ESCAPES] of the parser. *)
Definition escape (c : byte) : option byte :=
  match c with
  | "a"%byte => Some x07
  | "b"%byte => Some x08
  | "f"%byte => Some x0c
  | "n"%byte => Some x0a
  | "r"%byte => Some x0d
  | "t"%byte => Some x09
  | "v"%byte => Some x0b
  | "\"%byte => Some x5c
  | _ => None
  end.

(** [name.isidentifier()] for a name decoded as Latin-1. *)
Definition xid_start (b : byte) : bool :=
  is_ascii_letter b || Byte.eqb b "_" || Byte.eqb b xaa || Byte.eqb b xb5
  || Byte.eqb b xba || Py.in_range 0xC0 0xD6 b || Py.in_range 0xD8 0xF6 b
  || Py.in_range 0xF8 0xFF b.

Definition xid_continue (b : byte) : bool :=
  xid_start b || is_digit b || Byte.eqb b xb7.

Definition isidentifier (name : bytes) : bool :=
  match name with
  | [] => false
  | c :: rest => xid_start c && forallb xid_continue rest
  end.

(** [int(name)]: blanks around, a sign, decimal digits with single
    underscores between them, at most 4300 digits (the default limit of
    the interpreter). *)
Definition int_space (b : byte) : bool :=
  Py.is_ascii_space b || Byte.eqb b x85 || Byte.eqb b xa0.

Fixpoint int_digits (acc : Z) (count : nat) (l : bytes) : option (Z * nat) :=
  match l with
  | [] => Some (acc, count)
  | c :: l' =>
    if is_digit c then
      int_digits (10 * acc + Z.of_N (digit_val c))%Z (S count) l'
    else if Byte.eqb c "_" then
      match l' with
      | d :: _ => if is_digit d then int_digits acc count l' else None
      | [] => None
      end
    else None
  end.

Definition int_of (name : bytes) : option Z :=
  let body := rev (Py.dropwhile int_space (rev (Py.dropwhile int_space name))) in
  let signed :=
    match body with
    | "+"%byte :: r => (1%Z, r)
    | "-"%byte :: r => ((-1)%Z, r)
    | _ => (1%Z, body)
    end in
  match snd signed with
  | d :: _ =>
    if is_digit d then
      match int_digits 0%Z 0%nat (snd signed) with
      | Some (v, n) => if Nat.leb n 4300 then Some (fst signed * v)%Z else None
      | None => None
      end
    else None
  | [] => None
  end.

(** The group a [\g<name>] names, in a pattern without groups. *)
Definition group_index (name : bytes) : Result unit :=
  if isidentifier name then Raise (IndexError "unknown group name")
  else
    match int_of name with
    | Some index =>
      if (index <? 0)%Z then Raise (re_error "bad character in group name")
      else if (0 <? index)%Z then Raise (re_error "invalid group reference")
      else Ok tt
    | None => Raise (re_error "bad character in group name")
    end.

(** Reading a token also reads the one after it: taking the token before
    a dangling backslash raises. *)
Definition lex_error (rest : list token) : bool :=
  match rest with
  | Dangling :: _ => true
  | _ => false
  end.

Definition bad_end : exn := re_error "bad escape (end of pattern)".

Definition octal (ds : list byte) : N :=
  fold_left (fun acc d => 8 * acc + digit_val d) ds 0.

Definition next_is (f : byte -> bool) (rest : list token) : bool :=
  match rest with
  | Ch d :: _ => f d
  | _ => false
  end.

(** [parse_template] of the [re] module, for a pattern without groups:
    [\g<name>], octal escapes, references by number (all of them invalid
    here), the escapes of [ESCAPES], and a backslash before any other byte,
    which stays as it is unless the byte is an ASCII letter (an error since
    Python 3.7; 3.6 only warned and kept the two bytes). *)
Fixpoint parse_template (toks : list token) : Result (list piece) :=
  match toks with
  | [] => Ok []
  | Dangling :: _ => Raise bad_end
  | Ch b :: rest =>
    if lex_error rest then Raise bad_end
    else rmap (cons (Literal b)) (parse_template rest)
  | Esc c :: rest =>
    if lex_error rest then Raise bad_end
    else if Byte.eqb c "g" then
      match rest with
      | Ch b :: rest1 =>
        if negb (Byte.eqb b "<") then Raise (re_error "missing <")
        else if lex_error rest1 then Raise bad_end
        else
          (fix getuntil (name : bytes) (l : list token) : Result (list piece) :=
             match l with
             | [] => Raise (re_error "missing group name or >")
             | t :: l' =>
               if lex_error l' then Raise bad_end
               else
                 match t with
                 | Ch b =>
                   if Byte.eqb b ">" then
                     match name with
                     | [] => Raise (re_error "missing group name")
                     | _ => rbind (group_index name) (fun _ =>
                            rmap (cons Group0) (parse_template l'))
                     end
                   else getuntil (name ++ [b]) l'
                 | Esc b => getuntil (name ++ [BACKSLASH; b]) l'
                 | Dangling => Raise bad_end
                 end
             end) [] rest1
      | _ => Raise (re_error "missing <")
      end
    else if Byte.eqb c "0" then
      match rest with
      | Ch d1 :: rest1 =>
        if is_octdigit d1 then
          if lex_error rest1 then Raise bad_end
          else
            match rest1 with
            | Ch d2 :: rest2 =>
              if is_octdigit d2 then
                if lex_error rest2 then Raise bad_end
                else rmap (cons (Literal (Py.byte_of_N (octal [d1; d2]))))
                          (parse_template rest2)
              else rmap (cons (Literal (Py.byte_of_N (octal [d1]))))
                        (parse_template rest1)
            | _ => rmap (cons (Literal (Py.byte_of_N (octal [d1]))))
                        (parse_template rest1)
            end
        else rmap (cons (Literal x00)) (parse_template rest)
      | _ => rmap (cons (Literal x00)) (parse_template rest)
      end
    else if is_digit c then
      match rest with
      | Ch d1 :: rest1 =>
        if is_digit d1 then
          if lex_error rest1 then Raise bad_end
          else
            match rest1 with
            | Ch d2 :: rest2 =>
              if is_octdigit c && is_octdigit d1 && is_octdigit d2 then
                if lex_error rest2 then Raise bad_end
                else if 0xFF <? octal [c; d1; d2]
                then Raise (re_error "octal escape value outside of range 0-0o377")
                else rmap (cons (Literal (Py.byte_of_N (octal [c; d1; d2]))))
                          (parse_template rest2)
              else Raise (re_error "invalid group reference")
            | _ => Raise (re_error "invalid group reference")
            end
        else Raise (re_error "invalid group reference")
      | _ => Raise (re_error "invalid group reference")
      end
    else
      match escape c with
      | Some b => rmap (cons (Literal b)) (parse_template rest)
      | None =>
        if is_ascii_letter c then Raise (re_error "bad escape")
        else rmap (fun t => Literal BACKSLASH :: Literal c :: t)
                  (parse_template rest)
      end
  end.

(** [expand_template]: the literals, and the whole match for group 0. *)
Definition expand (template : list piece) (m : bytes) : bytes :=
  flat_map (fun pc => match pc with Literal b => [b] | Group0 => m end) template.

(** What [pattern_subx] does with a replacement that is no function. *)
Definition compile_repl (repl : bytes) : Result (list piece) :=
  if existsb (Byte.eqb BACKSLASH) repl
  then parse_template (tokenize repl)
  else Ok (map Literal repl).

(** [re.sub(p, repl, s, count=1)] *)
Definition sub (p : list item) (repl : bytes) (s : bytes) : Result bytes :=
  rbind (compile_repl repl) (fun template =>
    match search p s with
    | Some (before, m, after) => Ok (before ++ expand template m ++ after)
    | None => Ok s
    end).

End Re.

(** ** Effects

    A computation reads and extends the list of calls of [subprocess.run]
    made so far (the argument vector and the bytes for standard input of
    each), and returns a value or raises.  A call that was made stays in
    the list when a later step raises. *)

Definition World := list (list str * option bytes).

Definition M (A : Type) : Type := World -> Result A * World.

Definition ret {A} (a : A) : M A := fun w => (Ok a, w).

Definition raise {A} (e : exn) : M A := fun w => (Raise e, w).

Definition lift {A} (r : Result A) : M A := fun w => (r, w).

Definition bind {A B} (m : M A) (f : A -> M B) : M B :=
  fun w =>
    match m w with
    | (Ok a, w') => f a w'
    | (Raise e, w') => (Raise e, w')
    end.

(** [try: m  except Exception as e: handler e] *)
Definition try_except {A} (m : M A) (handler : exn -> M A) : M A :=
  fun w =>
    match m w with
    | (Ok a, w') => (Ok a, w')
    | (Raise e, w') => handler e w'
    end.

Notation "x <- m ;; k" := (bind m (fun x => k))
  (at level 61, m at next level, right associativity).

(** ** pydf/wkhtmltopdf.py *)

(** The keyword arguments of [generate_pdf] (lines 22-42). *)
Record Kwargs := {
  title : pyval;
  author : pyval;
  subject : pyval;
  creator : pyval;
  producer : pyval;
  cache_dir : pyval;
  grayscale : pyval;
  lowquality : pyval;
  margin_bottom : pyval;
  margin_left : pyval;
  margin_right : pyval;
  margin_top : pyval;
  orientation : pyval;
  page_height : pyval;
  page_width : pyval;
  page_size : pyval;
  image_dpi : pyval;
  image_quality : pyval;
  extra_kwargs : Py.dict
}.

(** The defaults of the signature. *)
Definition defaults : Kwargs := {|
  title := PNone; author := PNone; subject := PNone; creator := PNone;
  producer := PNone;
  cache_dir := PNone; grayscale := PBool false; lowquality := PBool false;
  margin_bottom := PNone; margin_left := PNone; margin_right := PNone;
  margin_top := PNone; orientation := PNone; page_height := PNone;
  page_width := PNone; page_size := PNone; image_dpi := PNone;
  image_quality := PNone;
  extra_kwargs := []
|}.

(** Lines 77-92: [py_args = dict(...); py_args.update(extra_kwargs)]. *)
Definition py_args (kw : Kwargs) : Py.dict :=
  Py.dict_update
    [ (str_lit "cache_dir", cache_dir kw);
      (str_lit "grayscale", grayscale kw);
      (str_lit "lowquality", lowquality kw);
      (str_lit "margin_bottom", margin_bottom kw);
      (str_lit "margin_left", margin_left kw);
      (str_lit "margin_right", margin_right kw);
      (str_lit "margin_top", margin_top kw);
      (str_lit "orientation", orientation kw);
      (str_lit "page_height", page_height kw);
      (str_lit "page_width", page_width kw);
      (str_lit "page_size", page_size kw);
      (str_lit "image_dpi", image_dpi kw);
      (str_lit "image_quality", image_quality kw) ]
    (extra_kwargs kw).

(** ['--' + name.replace('_', '-')]: 95 is the underscore, 45 the hyphen. *)
Definition arg_name (name : str) : str :=
  str_lit "--" ++ Py.replace 95 45 name.

(** One turn of the loop of lines 94-101. *)
Definition add_arg (cmd_args : list str) (name : str) (value : pyval) : list str :=
  if Py.in_set value [PNone; PBool false] then cmd_args
  else if Py.is_True value then cmd_args ++ [arg_name name]
  else cmd_args ++ [arg_name name; Py.str_of value].

(** Lines 93-104. *)
Definition cmd_args_of (args : Py.dict) : list str :=
  fold_left (fun cmd_args nv => add_arg cmd_args (fst nv) (snd nv)) args []
  ++ [str_lit "-"; str_lit "-"].

(** Line 74. *)
Definition looks_like_url (source : str) : bool :=
  Py.startswith_any (Py.lstrip source) [str_lit "http"; str_lit "www"].

Definition PDF_SIGNATURE : bytes := bytes_lit "%PDF".

(** Line 111. *)
Definition failed (p : CompletedProcess) : bool :=
  negb (returncode p =? 0)%Z
  && negb (Py.bytes_eqb (firstn 4 (stdout p)) PDF_SIGNATURE).

(** Lines 115-121. *)
Definition fields (kw : Kwargs) : list (str * pyval) :=
  [ (str_lit "Title", title kw);
    (str_lit "Author", author kw);
    (str_lit "Subject", subject kw);
    (str_lit "Creator", creator kw);
    (str_lit "Producer", producer kw) ].

(** [f'/{name} ({value})'] *)
Definition field_line (name : str) (value : pyval) : str :=
  str_lit "/" ++ name ++ str_lit " (" ++ Py.str_of value ++ str_lit ")".

(** Line 122. *)
Definition metadata_of (kw : Kwargs) : str :=
  Py.join [Py.newline]
    (map (fun nv => field_line (fst nv) (snd nv))
         (filter (fun nv => Py.truthy (snd nv)) (fields kw))).

(** [b'/Title.*\n.*\n/Producer.*'] *)
Definition PATTERN : list Re.item :=
  Re.lits "/Title" ++ [Re.DotStar; Re.Lit Re.NL; Re.DotStar; Re.Lit Re.NL]
  ++ Re.lits "/Producer" ++ [Re.DotStar].

(** Lines 122-125: the metadata patch. *)
Definition patch_metadata (kw : Kwargs) (pdf_bytes : bytes) : Result bytes :=
  let metadata := metadata_of kw in
  match metadata with
  | [] => Ok pdf_bytes
  | _ => rbind (Py.encode metadata) (fun repl => Re.sub PATTERN repl pdf_bytes)
  end.

(** [e.__class__.__name__] *)
Definition class_name (e : exn) : str :=
  match e with
  | ValueError _ => str_lit "ValueError"
  | RuntimeError _ _ => str_lit "RuntimeError"
  | UnicodeEncodeError _ => str_lit "UnicodeEncodeError"
  | UnicodeDecodeError _ => str_lit "UnicodeDecodeError"
  | re_error _ => str_lit "error"
  | IndexError _ => str_lit "IndexError"
  | OtherError c _ => c
  end.

Section Wkhtmltopdf.

(** [str(VERSION)] of [pydf/version.py]. *)
Variable VERSION : str.

(** [str(WK_PATH)], the path of the bundled binary (lines 7-8). *)
Variable WK_PATH : str.

(** [subprocess.run(wk_args, input=input, stdout=PIPE, stderr=PIPE)]: what
    the binary does with an argument vector and an input, given what ran
    before. *)
Variable subprocess_run : World -> list str -> option bytes -> Outcome.

(** [str(e)] for an exception [e]. *)
Variable exn_str : exn -> str.

(** Lines 11-19. *)
Definition execute_wk (args : list str) (input : option bytes) : M CompletedProcess :=
  let wk_args := WK_PATH :: args in
  fun w =>
    (match subprocess_run w wk_args input with
     | Completed p => Ok p
     | Failed c t => Raise (OtherError c t)
     end,
     w ++ [(wk_args, input)]).

(** Lines 106-113: run the binary on the source and apply the success
    policy. *)
Definition render (cmd_args : list str) (source : str) : M bytes :=
  input <- lift (Py.encode source) ;;
  p <- execute_wk cmd_args (Some input) ;;
  let pdf_bytes := stdout p in
  if failed p
  then raise (RuntimeError cmd_args (Py.bytes_strip (stderr p)))
  else ret pdf_bytes.

(** Lines 22-125. *)
Definition generate_pdf (source : str) (kw : Kwargs) : M bytes :=
  if looks_like_url source
  then raise (ValueError (str_lit "pdf generation from urls is not supported"))
  else
    let cmd_args := cmd_args_of (py_args kw) in
    pdf_bytes <- render cmd_args source ;;
    lift (patch_metadata kw pdf_bytes).

(** Lines 128-129. *)
Definition _string_execute (args : list str) : M str :=
  p <- execute_wk args None ;;
  s <- lift (Py.decode (stdout p)) ;;
  ret (Py.strip_chars [32; Py.newline]%N s).

(** Lines 132-143. *)
Definition get_version : M str :=
  wk_version <-
    try_except (_string_execute [str_lit "-V"])
      (fun e => ret (class_name e ++ str_lit ": " ++ exn_str e)) ;;
  ret (str_lit "pydf version: " ++ VERSION ++ [Py.newline]
       ++ str_lit "wkhtmltopdf version: " ++ wk_version).

(** Lines 146-163. *)
Definition get_help : M str := _string_execute [str_lit "-h"].

Definition get_extended_help : M str := _string_execute [str_lit "-H"].

End Wkhtmltopdf.

(** ** Vocabulary of the statements *)

(** Binaries to run the model against: one that exits with a status after
    writing to its two streams, and one that cannot be started. *)
Definition wk_exits (code : Z) (out err : bytes) : World -> list str -> option bytes -> Outcome :=
  fun _ _ _ => Completed {| returncode := code; stdout := out; stderr := err |}.

Definition wk_missing : World -> list str -> option bytes -> Outcome :=
  fun _ _ _ => Failed (str_lit "FileNotFoundError") (str_lit "No such file or directory").

(** Keyword arguments that differ from [kw] in the five metadata fields. *)
Definition set_metadata (t a s c p : pyval) (kw : Kwargs) : Kwargs := {|
  title := t; author := a; subject := s; creator := c; producer := p;
  cache_dir := cache_dir kw; grayscale := grayscale kw;
  lowquality := lowquality kw; margin_bottom := margin_bottom kw;
  margin_left := margin_left kw; margin_right := margin_right kw;
  margin_top := margin_top kw; orientation := orientation kw;
  page_height := page_height kw; page_width := page_width kw;
  page_size := page_size kw; image_dpi := image_dpi kw;
  image_quality := image_quality kw;
  extra_kwargs := extra_kwargs kw
|}.

(** No metadata field was passed. *)
Definition metadata_unset (kw : Kwargs) : Prop :=
  Forall (fun nv => snd nv = PNone) (fields kw).

(** An empty string read as an absent value. *)
Definition drop_empty (value : pyval) : pyval :=
  match value with
  | PStr [] => PNone
  | _ => value
  end.

Definition drop_empty_metadata (kw : Kwargs) : Kwargs :=
  set_metadata (drop_empty (title kw)) (drop_empty (author kw))
    (drop_empty (subject kw)) (drop_empty (creator kw))
    (drop_empty (producer kw)) kw.

(** The source is blanks, then [http] or [www], then anything. *)
Definition url_like (source : str) : Prop :=
  exists blanks scheme rest,
    source = blanks ++ scheme ++ rest
    /\ Forall (fun c => Py.isspace c = true) blanks
    /\ (scheme = str_lit "http" \/ scheme = str_lit "www").

Definition TITLE : bytes := bytes_lit "/Title".
Definition PRODUCER : bytes := bytes_lit "/Producer".

Definition one_line (l : bytes) : Prop := ~ In Re.NL l.

(** What [PATTERN] matches: [/Title] and the rest of its line, one whole
    line, and a line that starts with [/Producer]. *)
Definition is_span (m : bytes) : Prop :=
  exists l1 l2 l3,
    m = TITLE ++ l1 ++ [Re.NL] ++ l2 ++ [Re.NL] ++ PRODUCER ++ l3
    /\ one_line l1 /\ one_line l2 /\ one_line l3.

(** Nothing is left of the current line. *)
Definition at_line_end (after : bytes) : Prop :=
  after = [] \/ exists rest, after = Re.NL :: rest.

(** The number of places at which [block] occurs in [s]. *)
Fixpoint is_prefix (block s : bytes) : bool :=
  match block, s with
  | [], _ => true
  | b :: block', c :: s' => Byte.eqb b c && is_prefix block' s'
  | _ :: _, [] => false
  end.

Fixpoint occurrences (block s : bytes) : nat :=
  (if is_prefix block s then 1 else 0)
  + match s with
    | [] => 0
    | _ :: s' => occurrences block s'
    end.

(** The span as the specification words it: from the first [/Title]
    through the end of the first later line that holds [/Producer],
    however many lines lie between. *)
Fixpoint find (needle s : bytes) : option (bytes * bytes) :=
  if is_prefix needle s then Some ([], s)
  else
    match s with
    | [] => None
    | c :: s' =>
      match find needle s' with
      | Some (before, from) => Some (c :: before, from)
      | None => None
      end
    end.

Fixpoint line_of (s : bytes) : bytes :=
  match s with
  | [] => []
  | c :: s' => if Byte.eqb c Re.NL then [] else c :: line_of s'
  end.

(** What follows the current line. *)
Definition after_line (s : bytes) : bytes := skipn (List.length (line_of s)) s.

Definition spec_span (s : bytes) : option (bytes * bytes * bytes) :=
  match find TITLE s with
  | Some (before, from_title) =>
    match find PRODUCER from_title with
    | Some (upto, from_producer) =>
      Some (before, upto ++ line_of from_producer, after_line from_producer)
    | None => None
    end
  | None => None
  end.

Definition spec_patch (block s : bytes) : bytes :=
  match spec_span s with
  | Some (before, _, after) => before ++ block ++ after
  | None => s
  end.

(** The outcome the success policy of line 111 rejects. *)
Definition policy_fails (p : CompletedProcess) : Prop :=
  returncode p <> 0%Z /\ firstn 4 (stdout p) <> PDF_SIGNATURE.

(** The error of line 75. *)
Definition url_error : exn :=
  ValueError (str_lit "pdf generation from urls is not supported").

(** The error of line 112. *)
Definition render_error (cmd_args : list str) (p : CompletedProcess) : exn :=
  RuntimeError cmd_args (Py.bytes_strip (stderr p)).

(** The exceptions of the codec and of the template parser. *)
Definition encode_error (e : exn) : Prop :=
  match e with
  | UnicodeEncodeError _ => True
  | _ => False
  end.

Definition template_error (e : exn) : Prop :=
  match e with
  | re_error _ | IndexError _ => True
  | _ => False
  end.

(** The lines of a document, joined by newlines. *)
Fixpoint unlines (lines : list string) : bytes :=
  match lines with
  | [] => []
  | [l] => bytes_lit l
  | l :: rest => bytes_lit l ++ Re.NL :: unlines rest
  end.

(** [title='T'] and nothing else. *)
Definition kw_title (t : string) : Kwargs :=
  set_metadata (PStr (str_lit t)) PNone PNone PNone PNone defaults.

(** [image_quality=value] and nothing else. *)
Definition kw_image_quality (value : pyval) : Kwargs := {|
  title := PNone; author := PNone; subject := PNone; creator := PNone;
  producer := PNone;
  cache_dir := PNone; grayscale := PBool false; lowquality := PBool false;
  margin_bottom := PNone; margin_left := PNone; margin_right := PNone;
  margin_top := PNone; orientation := PNone; page_height := PNone;
  page_width := PNone; page_size := PNone; image_dpi := PNone;
  image_quality := value;
  extra_kwargs := []
|}.

(** The line a metadata field gives, if it gives one. *)
Definition optional_line (name : string) (value : pyval) : list str :=
  if Py.truthy value
  then [str_lit "/" ++ str_lit name ++ str_lit " (" ++ Py.str_of value ++ str_lit ")"]
  else [].

(** The tokens one turn of the loop of lines 94-101 adds for an option. *)
Definition option_tokens (name : str) (value : pyval) : list str :=
  if Py.in_set value [PNone; PBool false] then []
  else if Py.is_True value then [arg_name name]
  else [arg_name name; Py.str_of value].

(** * Proofs *)

(** ** Bytes and lines *)

Lemma byte_eqb_eq (a b : byte) : Byte.eqb a b = true <-> a = b.
Proof.
  split; [apply Byte.byte_dec_bl | apply Byte.byte_dec_lb].
Qed.

Lemma byte_eqb_neq (a b : byte) : Byte.eqb a b = false <-> a <> b.
Proof.
  split.
  - intros H E. apply byte_eqb_eq in E. congruence.
  - intros H. destruct (Byte.eqb a b) eqn:E; [|reflexivity].
    apply byte_eqb_eq in E. contradiction.
Qed.

Lemma byte_eqb_sym (a b : byte) : Byte.eqb a b = Byte.eqb b a.
Proof.
  destruct (Byte.eqb a b) eqn:E.
  - apply byte_eqb_eq in E. subst. symmetry. now apply byte_eqb_eq.
  - symmetry. apply byte_eqb_neq. apply byte_eqb_neq in E. congruence.
Qed.

Lemma bytes_eqb_eq (a b : bytes) : Py.bytes_eqb a b = true <-> a = b.
Proof.
  unfold Py.bytes_eqb. destruct (list_eq_dec Byte.byte_eq_dec a b); split; congruence.
Qed.

Lemma is_prefix_spec (l s : bytes) :
  is_prefix l s = true <-> exists r, s = l ++ r.
Proof.
  revert s. induction l as [|b l IH]; intros s; simpl.
  - split; [eauto | reflexivity].
  - destruct s as [|c s].
    + split; [discriminate | intros [r H]; discriminate].
    + rewrite andb_true_iff, byte_eqb_eq, IH. split.
      * intros [-> [r ->]]. eauto.
      * intros [r H]. injection H as -> ->. eauto.
Qed.

Lemma line_split (s : bytes) : s = line_of s ++ after_line s.
Proof.
  unfold after_line. induction s as [|c s IH]; simpl; [reflexivity|].
  destruct (Byte.eqb c Re.NL); simpl; [reflexivity | now f_equal].
Qed.

Lemma line_of_one_line (s : bytes) : one_line (line_of s).
Proof.
  unfold one_line. induction s as [|c s IH]; simpl; [tauto|].
  destruct (Byte.eqb c Re.NL) eqn:E; simpl; [tauto|].
  apply byte_eqb_neq in E. intros [H | H]; [congruence | tauto].
Qed.

Lemma after_line_end (s : bytes) : at_line_end (after_line s).
Proof.
  unfold at_line_end, after_line. induction s as [|c s IH]; simpl; [now left|].
  destruct (Byte.eqb c Re.NL) eqn:E; simpl; [|exact IH].
  apply byte_eqb_eq in E. subst. right. eauto.
Qed.

Lemma line_of_app (l x : bytes) :
  one_line l -> line_of (l ++ Re.NL :: x) = l.
Proof.
  unfold one_line. induction l as [|c l IH]; simpl; intros H.
  - reflexivity.
  - destruct (Byte.eqb c Re.NL) eqn:E.
    + apply byte_eqb_eq in E. subst. tauto.
    + f_equal. apply IH. tauto.
Qed.

Lemma after_line_app (l x : bytes) :
  one_line l -> after_line (l ++ Re.NL :: x) = Re.NL :: x.
Proof.
  intros H. unfold after_line. rewrite (line_of_app l x H).
  now rewrite skipn_app, skipn_all, Nat.sub_diag.
Qed.

Lemma line_of_app_line (l x : bytes) :
  one_line l -> line_of (l ++ x) = l ++ line_of x.
Proof.
  unfold one_line. induction l as [|c l IH]; simpl; intros H; [reflexivity|].
  destruct (Byte.eqb c Re.NL) eqn:E.
  - apply byte_eqb_eq in E. subst. tauto.
  - f_equal. apply IH. tauto.
Qed.

(** ** The matcher *)

Lemma match_here_lits (l : bytes) (q : list Re.item) (s : bytes) :
  Re.match_here (map Re.Lit l ++ q) s =
  if is_prefix l s then Re.match_here q (skipn (List.length l) s) else None.
Proof.
  revert s. induction l as [|b l IH]; intros s; simpl.
  - reflexivity.
  - destruct s as [|c s]; [reflexivity|].
    rewrite (byte_eqb_sym b c). destruct (Byte.eqb c b); simpl; [apply IH | reflexivity].
Qed.

Lemma match_star_nl (q : list Re.item) (s : bytes) :
  Re.match_here (Re.DotStar :: Re.Lit Re.NL :: q) s =
  match after_line s with
  | _ :: r => Re.match_here q r
  | [] => None
  end.
Proof.
  unfold after_line. induction s as [|c s IH].
  - reflexivity.
  - cbn [Re.match_here] in IH |- *. cbn [line_of]. destruct (Byte.eqb c Re.NL) eqn:E.
    + reflexivity.
    + cbn [List.length skipn]. rewrite IH.
      destruct (skipn (List.length (line_of s)) s); [reflexivity|].
      destruct (Re.match_here q l); reflexivity.
Qed.

Lemma match_star_end (s : bytes) :
  Re.match_here [Re.DotStar] s = Some (after_line s).
Proof.
  unfold after_line. induction s as [|c s IH].
  - reflexivity.
  - cbn [Re.match_here] in IH |- *. cbn [line_of]. destruct (Byte.eqb c Re.NL) eqn:E.
    + reflexivity.
    + cbn [List.length skipn]. now rewrite IH.
Qed.

Lemma match_here_suffix (p : list Re.item) (s rest : bytes) :
  Re.match_here p s = Some rest -> exists m, s = m ++ rest.
Proof.
  revert s rest. induction p as [|[b|] p IH]; intros s rest.
  - simpl. intros [= ->]. now exists [].
  - simpl. destruct s as [|c s]; [discriminate|].
    destruct (Byte.eqb c b); [|discriminate].
    intros H. destruct (IH _ _ H) as [m ->]. now exists (c :: m).
  - cbn [Re.match_here]. revert rest. induction s as [|c s IHs]; intros rest.
    + apply IH.
    + destruct (Byte.eqb c Re.NL); [apply IH|].
      match goal with
      | |- context [match ?X with Some _ => _ | None => _ end] =>
        destruct X as [r|] eqn:E
      end.
      * intros [= <-]. destruct (IHs _ eq_refl) as [m ->]. now exists (c :: m).
      * apply IH.
Qed.

Lemma PATTERN_eq :
  PATTERN = map Re.Lit TITLE
            ++ Re.DotStar :: Re.Lit Re.NL :: Re.DotStar :: Re.Lit Re.NL
               :: (map Re.Lit PRODUCER ++ [Re.DotStar]).
Proof. reflexivity. Qed.

Lemma match_PATTERN (s : bytes) :
  Re.match_here PATTERN s =
  if is_prefix TITLE s then
    match after_line (skipn (List.length TITLE) s) with
    | _ :: s2 =>
      match after_line s2 with
      | _ :: s3 =>
        if is_prefix PRODUCER s3
        then Some (after_line (skipn (List.length PRODUCER) s3))
        else None
      | [] => None
      end
    | [] => None
    end
  else None.
Proof.
  rewrite PATTERN_eq, match_here_lits.
  destruct (is_prefix TITLE s); [|reflexivity].
  rewrite match_star_nl.
  destruct (after_line (skipn (List.length TITLE) s)) as [|c s2]; [reflexivity|].
  rewrite match_star_nl.
  destruct (after_line s2) as [|c' s3]; [reflexivity|].
  rewrite match_here_lits.
  destruct (is_prefix PRODUCER s3); [|reflexivity].
  apply match_star_end.
Qed.

Lemma after_line_cons (s : bytes) (c : byte) (r : bytes) :
  after_line s = c :: r -> s = line_of s ++ Re.NL :: r.
Proof.
  intros H. pose proof (after_line_end s) as E. rewrite H in E.
  destruct E as [E | [r' E]]; [discriminate|]. injection E as -> ->.
  rewrite <- H. apply line_split.
Qed.

(** A successful match is a span that runs to the end of its last line. *)
Lemma match_PATTERN_Some (s rest : bytes) :
  Re.match_here PATTERN s = Some rest ->
  exists m, s = m ++ rest /\ is_span m /\ at_line_end rest.
Proof.
  rewrite match_PATTERN.
  destruct (is_prefix TITLE s) eqn:E1; [|discriminate].
  apply is_prefix_spec in E1. destruct E1 as [s1 ->].
  rewrite skipn_app, skipn_all, Nat.sub_diag. cbn [app skipn].
  destruct (after_line s1) as [|c2 s2] eqn:E2; [discriminate|].
  apply after_line_cons in E2.
  destruct (after_line s2) as [|c3 s3] eqn:E3; [discriminate|].
  apply after_line_cons in E3.
  destruct (is_prefix PRODUCER s3) eqn:E4; [|discriminate].
  apply is_prefix_spec in E4. destruct E4 as [s4 ->].
  rewrite skipn_app, skipn_all, Nat.sub_diag. cbn [app skipn].
  intros [= <-].
  exists (TITLE ++ line_of s1 ++ [Re.NL] ++ line_of s2 ++ [Re.NL] ++ PRODUCER ++ line_of s4).
  split; [|split].
  - rewrite E2 at 1. rewrite E3 at 1. rewrite (line_split s4) at 1.
    now rewrite <- !app_assoc.
  - exists (line_of s1), (line_of s2), (line_of s4).
    repeat split; apply line_of_one_line.
  - apply after_line_end.
Qed.

(** Wherever a span starts, the pattern matches. *)
Lemma match_PATTERN_span (m r : bytes) :
  is_span m -> exists rest, Re.match_here PATTERN (m ++ r) = Some rest.
Proof.
  intros (l1 & l2 & l3 & -> & H1 & H2 & H3).
  rewrite match_PATTERN.
  assert (P : forall x, is_prefix TITLE (TITLE ++ x) = true)
    by (intros x; apply is_prefix_spec; eauto).
  assert (Q : forall x, is_prefix PRODUCER (PRODUCER ++ x) = true)
    by (intros x; apply is_prefix_spec; eauto).
  rewrite <- !app_assoc. rewrite P.
  rewrite skipn_app, skipn_all, Nat.sub_diag. cbn [app skipn].
  rewrite (after_line_app l1 _ H1), (after_line_app l2 _ H2), Q.
  eauto.
Qed.

Lemma match_PATTERN_None (s : bytes) :
  Re.match_here PATTERN s = None ->
  forall m r, s = m ++ r -> ~ is_span m.
Proof.
  intros H m r -> Hm. destruct (match_PATTERN_span m r Hm) as [rest E].
  congruence.
Qed.

(** ** The search *)

Lemma some_triple_inj {A B C} (a a' : A) (b b' : B) (c c' : C) :
  Some (a, b, c) = Some (a', b', c') -> a' = a /\ b' = b /\ c' = c.
Proof. intros H. injection H. auto. Qed.

Lemma search_Some (p : list Re.item) (s before m after : bytes) :
  Re.search p s = Some (before, m, after) ->
  s = before ++ m ++ after
  /\ Re.match_here p (m ++ after) = Some after
  /\ (forall b' s', s = b' ++ s' -> List.length b' < List.length before ->
      Re.match_here p s' = None).
Proof.
  revert before m after.
  assert (F : forall s' rest, Re.match_here p s' = Some rest ->
            s' = firstn (List.length s' - List.length rest) s' ++ rest).
  { intros s' rest E. destruct (match_here_suffix _ _ _ E) as [m' Hm].
    rewrite Hm at 2 3. rewrite length_app, Nat.add_sub.
    now rewrite firstn_app, firstn_all, Nat.sub_diag, firstn_O, app_nil_r. }
  induction s as [|c s IH]; intros before m after; cbn [Re.search].
  - destruct (Re.match_here p []) as [rest|] eqn:E; [|discriminate].
    intros H. apply some_triple_inj in H. destruct H as (-> & -> & ->).
    pose proof (F _ _ E) as Hs. cbn [app]. rewrite <- Hs.
    repeat split; [assumption | intros; simpl in *; lia].
  - destruct (Re.match_here p (c :: s)) as [rest|] eqn:E.
    + intros H. apply some_triple_inj in H. destruct H as (-> & -> & ->).
      pose proof (F _ _ E) as Hs. cbn [app]. rewrite <- Hs.
      repeat split; [assumption | intros; simpl in *; lia].
    + destruct (Re.search p s) as [[[b0 m0] a0]|] eqn:S; [|discriminate].
      intros H. apply some_triple_inj in H. destruct H as (-> & -> & ->).
      destruct (IH _ _ _ eq_refl) as (H1 & H2 & H3).
      repeat split.
      * simpl. now f_equal.
      * exact H2.
      * intros b' s' Hs Hl. destruct b' as [|c' b'].
        -- simpl in Hs. now subst.
        -- injection Hs as -> ->. apply (H3 b'); [reflexivity | simpl in Hl; lia].
Qed.

Lemma search_None (p : list Re.item) (s : bytes) :
  Re.search p s = None ->
  forall b' s', s = b' ++ s' -> Re.match_here p s' = None.
Proof.
  induction s as [|c s IH]; cbn [Re.search].
  - destruct (Re.match_here p []) eqn:E; [discriminate|].
    intros _ b' s' H. symmetry in H. apply app_eq_nil in H. destruct H as [-> ->].
    exact E.
  - destruct (Re.match_here p (c :: s)) eqn:E; [discriminate|].
    destruct (Re.search p s) as [[[b0 m0] a0]|] eqn:S; [discriminate|].
    intros _ b' s' H. destruct b' as [|c' b'].
    + simpl in H. now subst.
    + injection H as -> ->. now apply (IH eq_refl b').
Qed.

(** The search finds the leftmost span, whole, or there is none. *)
Lemma search_PATTERN (s : bytes) :
  match Re.search PATTERN s with
  | Some (before, m, after) =>
    s = before ++ m ++ after /\ is_span m /\ at_line_end after
    /\ forall b' m' a', s = b' ++ m' ++ a' -> is_span m' ->
       List.length before <= List.length b'
  | None => forall b' m' a', s = b' ++ m' ++ a' -> ~ is_span m'
  end.
Proof.
  destruct (Re.search PATTERN s) as [[[before m] after]|] eqn:E.
  - destruct (search_Some _ _ _ _ _ E) as (H1 & H2 & H3).
    destruct (match_PATTERN_Some _ _ H2) as (m' & Hm & Hs & He).
    apply app_inv_tail in Hm. subst m'.
    repeat split; try assumption.
    intros b' m' a' Hd Hm'.
    destruct (Nat.le_gt_cases (List.length before) (List.length b')) as [L|L]; [exact L|].
    destruct (match_PATTERN_span m' a' Hm') as [rest R].
    rewrite (H3 b' (m' ++ a') Hd L) in R. discriminate.
  - intros b' m' a' Hd. apply (match_PATTERN_None (m' ++ a')) with (r := a'); [|reflexivity].
    apply (search_None _ _ E b'). exact Hd.
Qed.

(** ** Replacement templates *)

Lemma no_backslash_existsb (repl : bytes) :
  ~ In Re.BACKSLASH repl -> existsb (Byte.eqb Re.BACKSLASH) repl = false.
Proof.
  intros H. destruct (existsb (Byte.eqb Re.BACKSLASH) repl) eqn:E; [|reflexivity].
  apply existsb_exists in E. destruct E as (x & Hx & E).
  apply byte_eqb_eq in E. subst. contradiction.
Qed.

Lemma expand_literal (repl m : bytes) :
  Re.expand (map Re.Literal repl) m = repl.
Proof.
  unfold Re.expand. induction repl as [|b repl IH]; simpl; [reflexivity | now f_equal].
Qed.

(** A replacement without a backslash is put in as it is. *)
Lemma sub_literal (p : list Re.item) (repl s : bytes) :
  ~ In Re.BACKSLASH repl ->
  Re.sub p repl s =
  Ok match Re.search p s with
     | Some (before, _, after) => before ++ repl ++ after
     | None => s
     end.
Proof.
  intros H. unfold Re.sub, Re.compile_repl.
  rewrite (no_backslash_existsb _ H). cbn [rbind].
  destruct (Re.search p s) as [[[before m] after]|]; [|reflexivity].
  now rewrite expand_literal.
Qed.

(** Whatever the template, a substitution changes the matched span only. *)
Lemma sub_Ok (p : list Re.item) (repl s out : bytes) :
  Re.sub p repl s = Ok out ->
  match Re.search p s with
  | Some (before, _, after) => exists block, out = before ++ block ++ after
  | None => out = s
  end.
Proof.
  unfold Re.sub. destruct (Re.compile_repl repl) as [template|e]; cbn [rbind]; [|discriminate].
  destruct (Re.search p s) as [[[before m] after]|]; intros [= <-]; eauto.
Qed.

(** ** UTF-8 *)

Lemma to_N_byte_of_N (n : N) : Byte.to_N (Py.byte_of_N n) = (n mod 256)%N.
Proof.
  unfold Py.byte_of_N. destruct (Byte.of_N (n mod 256)) as [b|] eqn:E.
  - now apply Byte.to_of_N.
  - apply Byte.of_N_None_iff in E.
    pose proof (N.mod_upper_bound n 256 ltac:(discriminate)). lia.
Qed.

Lemma high_byte_not_backslash (k y : N) :
  N.testbit k 7 = true -> Py.byte_of_N (N.lor k y) <> Re.BACKSLASH.
Proof.
  intros Hk E. apply (f_equal Byte.to_N) in E. rewrite to_N_byte_of_N in E.
  apply (f_equal (fun n => N.testbit n 7)) in E.
  change 256%N with (2 ^ 8)%N in E.
  rewrite N.mod_pow2_bits_low, N.lor_spec, Hk in E by reflexivity.
  discriminate.
Qed.

Lemma some_inj {A} (a b : A) : Some a = Some b -> b = a.
Proof. now intros [= ->]. Qed.

Lemma utf8_char_backslash (c : N) (bs : bytes) :
  Py.utf8_char c = Some bs -> In Re.BACKSLASH bs -> c = 92%N.
Proof.
  unfold Py.utf8_char.
  assert (H80 : forall y, Py.byte_of_N (N.lor 0x80 y) <> Re.BACKSLASH)
    by (intros; now apply high_byte_not_backslash).
  assert (HC0 : forall y, Py.byte_of_N (N.lor 0xC0 y) <> Re.BACKSLASH)
    by (intros; now apply high_byte_not_backslash).
  assert (HE0 : forall y, Py.byte_of_N (N.lor 0xE0 y) <> Re.BACKSLASH)
    by (intros; now apply high_byte_not_backslash).
  assert (HF0 : forall y, Py.byte_of_N (N.lor 0xF0 y) <> Re.BACKSLASH)
    by (intros; now apply high_byte_not_backslash).
  destruct (c <? 0x80)%N eqn:E1.
  { intros E H. apply some_inj in E. subst bs. destruct H as [H|[]].
    apply N.ltb_lt in E1.
    apply (f_equal Byte.to_N) in H. rewrite to_N_byte_of_N in H.
    rewrite N.mod_small in H by lia. exact H. }
  destruct (c <? 0x800)%N.
  { intros E H. apply some_inj in E. subst bs.
    destruct H as [H|[H|[]]]; exfalso; revert H;
      first [apply H80 | apply HC0]. }
  destruct ((0xD800 <=? c)%N && (c <=? 0xDFFF)%N); [discriminate|].
  destruct (c <? 0x10000)%N.
  { intros E H. apply some_inj in E. subst bs.
    destruct H as [H|[H|[H|[]]]]; exfalso; revert H;
      first [apply H80 | apply HE0]. }
  destruct (c <? 0x110000)%N; [|discriminate].
  intros E H. apply some_inj in E. subst bs.
  destruct H as [H|[H|[H|[H|[]]]]]; exfalso; revert H;
    first [apply H80 | apply HF0].
Qed.

(** The encoded text holds a backslash only where the text does. *)
Lemma encode_backslash (s : str) (b : bytes) :
  Py.encode s = Ok b -> In Re.BACKSLASH b -> In 92%N s.
Proof.
  unfold Py.encode. generalize 0%nat. revert b.
  induction s as [|c s IH]; intros b pos; simpl.
  - intros [= <-] [].
  - destruct (Py.utf8_char c) as [bs|] eqn:E; [|discriminate].
    destruct (Py.encode_from (S pos) s) as [b'|] eqn:E'; [|discriminate].
    intros [= <-] H. apply in_app_or in H. destruct H as [H|H].
    + left. now apply (utf8_char_backslash c bs).
    + right. now apply (IH b' (S pos)).
Qed.

(** ** Which exceptions come from where *)

Lemma encode_Raise (s : str) (e : exn) :
  Py.encode s = Raise e -> encode_error e.
Proof.
  unfold Py.encode. generalize 0%nat.
  induction s as [|c s IH]; intros pos; simpl; [discriminate|].
  destruct (Py.utf8_char c); [|now intros [= <-]].
  destruct (Py.encode_from (S pos) s) eqn:E; [discriminate|].
  intros [= <-]. now apply (IH (S pos)).
Qed.

Lemma rmap_Raise {A B} (f : A -> B) (r : Result A) (P : exn -> Prop) :
  (forall e, r = Raise e -> P e) -> forall e, rmap f r = Raise e -> P e.
Proof.
  intros H e. destruct r; simpl; [discriminate|]. intros [= <-]. now apply H.
Qed.

Lemma group_index_Raise (name : bytes) (e : exn) :
  Re.group_index name = Raise e -> template_error e.
Proof.
  unfold Re.group_index.
  repeat match goal with
         | |- (if ?c then _ else _) = _ -> _ => destruct c
         | |- match ?x with _ => _ end = _ -> _ => destruct x
         end; try discriminate; now intros [= <-].
Qed.

(** One step through the cases of [Re.parse_template]; [IH] is the
    statement for shorter token lists. *)
Ltac template_step IH :=
  match goal with
  | |- Raise _ = Raise _ -> _ => intros [= <-]; exact I
  | |- rmap _ (Re.parse_template _) = Raise _ -> _ =>
    apply rmap_Raise; intros ? ?; eapply IH; [|eassumption]; simpl in *; lia
  | |- (if ?c then _ else _) = _ -> _ => destruct c
  | |- match ?x with _ => _ end = _ -> _ => destruct x
  end.

Lemma parse_template_Raise_upto (n : nat) :
  forall toks, List.length toks <= n ->
  forall e, Re.parse_template toks = Raise e -> template_error e.
Proof.
  induction n as [|n IHn]; intros toks Hn e.
  - destruct toks; [discriminate | simpl in Hn; lia].
  - destruct toks as [|t rest]; [discriminate|].
    destruct t as [b|c|]; cbn [Re.parse_template].
    + repeat template_step IHn.
    + destruct (Re.lex_error rest); [now intros [= <-]|].
      destruct (Byte.eqb c "g").
      { destruct rest as [|[b| |] rest1]; try (now intros [= <-]).
        destruct (negb (Byte.eqb b "<")); [now intros [= <-]|].
        destruct (Re.lex_error rest1); [now intros [= <-]|].
        assert (L : List.length rest1 <= n) by (simpl in Hn; lia).
        clear Hn.
        match goal with
        | |- ?f nil rest1 = Raise e -> _ =>
          cut (forall name, f name rest1 = Raise e -> template_error e);
            [intros X; apply X|]
        end.
        revert e L.
        induction rest1 as [|t l IHl]; intros e L name; [now intros [= <-]|].
        destruct (Re.lex_error l); [now intros [= <-]|].
        destruct t as [b'|b'|]; [| |now intros [= <-]].
        - destruct (Byte.eqb b' ">").
          + destruct name; [now intros [= <-]|].
            destruct (Re.group_index (b0 :: name)) eqn:G; cbn [rbind].
            * apply rmap_Raise. intros e' He'. eapply IHn; [|eassumption].
              simpl in L. lia.
            * intros [= <-]. now apply (group_index_Raise _ _ G).
          + apply IHl. simpl in L. lia.
        - apply IHl. simpl in L. lia. }
      repeat template_step IHn.
    + now intros [= <-].
Qed.

Lemma parse_template_Raise (toks : list Re.token) (e : exn) :
  Re.parse_template toks = Raise e -> template_error e.
Proof. apply (parse_template_Raise_upto (List.length toks)). lia. Qed.

Lemma sub_Raise (p : list Re.item) (repl s : bytes) (e : exn) :
  Re.sub p repl s = Raise e -> template_error e.
Proof.
  unfold Re.sub, Re.compile_repl.
  destruct (existsb (Byte.eqb Re.BACKSLASH) repl); cbn [rbind].
  - destruct (Re.parse_template (Re.tokenize repl)) eqn:E; cbn [rbind].
    + destruct (Re.search p s) as [[[? ?] ?]|]; discriminate.
    + intros [= <-]. now apply (parse_template_Raise _ _ E).
  - destruct (Re.search p s) as [[[? ?] ?]|]; discriminate.
Qed.

Lemma patch_metadata_Raise (kw : Kwargs) (pdf : bytes) (e : exn) :
  patch_metadata kw pdf = Raise e -> encode_error e \/ template_error e.
Proof.
  unfold patch_metadata. destruct (metadata_of kw) as [|c m]; [discriminate|].
  destruct (Py.encode (c :: m)) eqn:E; cbn [rbind].
  - right. now apply (sub_Raise _ _ _ _ H).
  - intros [= <-]. left. now apply (encode_Raise _ _ E).
Qed.

(** ** The source check *)

Lemma startswith_spec (s prefix : str) :
  Py.startswith s prefix = true <-> exists rest, s = prefix ++ rest.
Proof.
  revert s. induction prefix as [|p prefix IH]; intros s.
  - split; [intros _; now exists s | now destruct s].
  - destruct s as [|c s]; simpl.
    + split; [discriminate | intros [r H]; discriminate].
    + rewrite andb_true_iff, N.eqb_eq, IH. split.
      * intros [-> [r ->]]. eauto.
      * intros [r H]. injection H as -> ->. eauto.
Qed.

Lemma lstrip_blanks (blanks x : str) :
  Forall (fun c => Py.isspace c = true) blanks ->
  Py.lstrip (blanks ++ x) = Py.lstrip x.
Proof.
  unfold Py.lstrip. induction 1 as [|c blanks Hc _ IH]; simpl; [reflexivity|].
  now rewrite Hc.
Qed.

Lemma lstrip_split (s : str) :
  exists blanks,
    s = blanks ++ Py.lstrip s /\ Forall (fun c => Py.isspace c = true) blanks.
Proof.
  unfold Py.lstrip. induction s as [|c s (blanks & E & F)]; simpl.
  - exists []. split; [reflexivity | constructor].
  - destruct (Py.isspace c) eqn:Hc.
    + exists (c :: blanks). split; [simpl; now f_equal | now constructor].
    + exists []. split; [reflexivity | constructor].
Qed.

(** Line 74 tests what [url_like] says. *)
Lemma looks_like_url_spec (source : str) :
  looks_like_url source = true <-> url_like source.
Proof.
  unfold looks_like_url, Py.startswith_any, url_like. cbn [existsb].
  rewrite orb_false_r, orb_true_iff, !startswith_spec. split.
  - destruct (lstrip_split source) as (blanks & E & F).
    intros [[rest H] | [rest H]]; rewrite H in E; eauto 8.
  - intros (blanks & scheme & rest & -> & F & H).
    rewrite (lstrip_blanks _ _ F).
    destruct H as [-> | ->]; [left | right]; exists rest; reflexivity.
Qed.

Lemma not_url_like (source : str) :
  looks_like_url source = false <-> ~ url_like source.
Proof.
  rewrite <- looks_like_url_spec. destruct (looks_like_url source); split; congruence.
Qed.

(** ** The success policy *)

Lemma failed_spec (p : CompletedProcess) :
  failed p = true <-> policy_fails p.
Proof.
  unfold failed, policy_fails.
  rewrite andb_true_iff, !negb_true_iff, Z.eqb_neq.
  split; intros [H1 H2]; split; try assumption.
  - intros E. apply bytes_eqb_eq in E. congruence.
  - destruct (Py.bytes_eqb _ _) eqn:E; [|reflexivity].
    apply bytes_eqb_eq in E. contradiction.
Qed.

Lemma not_failed_spec (p : CompletedProcess) :
  failed p = false <-> ~ policy_fails p.
Proof.
  rewrite <- failed_spec. destruct (failed p); split; congruence.
Qed.

(** [render], once the source is encoded and the process has run. *)
Lemma render_run (WK_PATH : str) (run : World -> list str -> option bytes -> Outcome)
      (cmd_args : list str) (source : str) (w : World) (input : bytes)
      (p : CompletedProcess) :
  Py.encode source = Ok input ->
  run w (WK_PATH :: cmd_args) (Some input) = Completed p ->
  render WK_PATH run cmd_args source w =
  (if failed p then Raise (render_error cmd_args p) else Ok (stdout p),
   w ++ [(WK_PATH :: cmd_args, Some input)]).
Proof.
  intros E R. unfold render, bind, lift, execute_wk. rewrite E, R.
  destruct (failed p); reflexivity.
Qed.

(** [generate_pdf] on a source that passes line 74. *)
Lemma generate_pdf_run (WK_PATH : str) (run : World -> list str -> option bytes -> Outcome)
      (source : str) (kw : Kwargs) (w : World) (input : bytes)
      (p : CompletedProcess) :
  looks_like_url source = false ->
  Py.encode source = Ok input ->
  run w (WK_PATH :: cmd_args_of (py_args kw)) (Some input) = Completed p ->
  fst (generate_pdf WK_PATH run source kw w) =
  if failed p then Raise (render_error (cmd_args_of (py_args kw)) p)
  else patch_metadata kw (stdout p).
Proof.
  intros U E R. unfold generate_pdf. rewrite U. unfold bind at 1.
  rewrite (render_run _ _ _ _ _ _ _ E R).
  destruct (failed p); reflexivity.
Qed.

Lemma patch_metadata_not_render_error (kw : Kwargs) (pdf : bytes)
      (cmd_args : list str) (response : bytes) :
  patch_metadata kw pdf <> Raise (RuntimeError cmd_args response).
Proof.
  intros H. apply patch_metadata_Raise in H. destruct H as [[]|[]].
Qed.

(** C1: once the source is encoded and the binary has run to an exit status,
    the render step (lines 106-113) raises the error that carries the
    argument list and the stripped error stream exactly when the status is
    non-zero and the first four bytes of the output are not [%PDF]; in
    every other case it returns the captured output.  [generate_pdf] raises
    that error in the same cases and otherwise hands the captured output to
    the metadata patch. *)
Theorem render_fails_iff_policy_fails
        (WK_PATH : str) (run : World -> list str -> option bytes -> Outcome)
        (cmd_args : list str) (source : str) (w : World) (input : bytes)
        (p : CompletedProcess) :
  Py.encode source = Ok input ->
  run w (WK_PATH :: cmd_args) (Some input) = Completed p ->
  (fst (render WK_PATH run cmd_args source w) = Raise (render_error cmd_args p)
   <-> policy_fails p)
  /\ (fst (render WK_PATH run cmd_args source w) = Ok (stdout p)
      <-> ~ policy_fails p)
  /\ (forall kw,
      cmd_args_of (py_args kw) = cmd_args ->
      looks_like_url source = false ->
      (fst (generate_pdf WK_PATH run source kw w) = Raise (render_error cmd_args p)
       <-> policy_fails p)
      /\ (~ policy_fails p ->
          fst (generate_pdf WK_PATH run source kw w) = patch_metadata kw (stdout p))).
Proof.
  intros E R. rewrite (render_run _ _ _ _ _ _ _ E R). cbn [fst].
  destruct (failed p) eqn:F.
  - apply failed_spec in F. split; [tauto|]. split.
    + split; [discriminate | tauto].
    + intros kw <- U. rewrite (generate_pdf_run _ _ _ _ _ _ _ U E R).
      rewrite (proj2 (failed_spec p) F). tauto.
  - apply not_failed_spec in F. split; [split; [discriminate | tauto]|]. split.
    + tauto.
    + intros kw <- U. rewrite (generate_pdf_run _ _ _ _ _ _ _ U E R).
      rewrite (proj2 (not_failed_spec p) F). split; [|reflexivity].
      split; [|tauto].
      intros G. now apply patch_metadata_not_render_error in G.
Qed.

Lemma render_fails_iff_policy_fails_witness :
  (fst (render (str_lit "wkhtmltopdf") (wk_exits 1 (bytes_lit "oops") (bytes_lit " no "))
          [str_lit "-"; str_lit "-"] (str_lit "<h1>hi</h1>") [])
     = Raise (RuntimeError [str_lit "-"; str_lit "-"] (bytes_lit "no"))
   <-> policy_fails {| returncode := 1; stdout := bytes_lit "oops"; stderr := bytes_lit " no " |})
  /\ (fst (render (str_lit "wkhtmltopdf") (wk_exits 1 (bytes_lit "oops") (bytes_lit " no "))
           [str_lit "-"; str_lit "-"] (str_lit "<h1>hi</h1>") [])
      = Ok (bytes_lit "oops")
      <-> ~ policy_fails {| returncode := 1; stdout := bytes_lit "oops"; stderr := bytes_lit " no " |}).
Proof.
  pose proof (render_fails_iff_policy_fails (str_lit "wkhtmltopdf")
                (wk_exits 1 (bytes_lit "oops") (bytes_lit " no "))
                [str_lit "-"; str_lit "-"] (str_lit "<h1>hi</h1>") []
                (bytes_lit "<h1>hi</h1>")
                {| returncode := 1; stdout := bytes_lit "oops"; stderr := bytes_lit " no " |}
                eq_refl eq_refl) as H.
  split; apply H.
Defined.

(** ** The signature survives the patch *)

Lemma match_PATTERN_head (s rest : bytes) :
  Re.match_here PATTERN s = Some rest -> exists t, s = "/"%byte :: t.
Proof.
  rewrite match_PATTERN. destruct (is_prefix TITLE s) eqn:E; [|discriminate].
  apply is_prefix_spec in E. destruct E as [r ->]. intros _.
  now exists (bytes_lit "Title" ++ r).
Qed.

Lemma signature_before (before x y : bytes) (t : bytes) :
  firstn 4 (before ++ "/"%byte :: t) = PDF_SIGNATURE ->
  firstn 4 (before ++ y) = PDF_SIGNATURE.
Proof.
  destruct before as [|a [|b [|c [|d before]]]]; simpl; try discriminate.
  now intros H.
Qed.

Lemma patch_keeps_signature (kw : Kwargs) (pdf out : bytes) :
  patch_metadata kw pdf = Ok out ->
  firstn 4 pdf = PDF_SIGNATURE -> firstn 4 out = PDF_SIGNATURE.
Proof.
  unfold patch_metadata. destruct (metadata_of kw) as [|c m]; [now intros [= <-]|].
  destruct (Py.encode (c :: m)) as [repl|]; cbn [rbind]; [|discriminate].
  intros H S. apply sub_Ok in H.
  destruct (Re.search PATTERN pdf) as [[[before sp] after]|] eqn:E; [|now subst].
  destruct H as [block ->].
  destruct (search_Some _ _ _ _ _ E) as (-> & M & _).
  destruct (match_PATTERN_head _ _ M) as [t Ht]. rewrite Ht in S.
  now apply (signature_before before [] _ t).
Qed.

(** C2, amended: when the binary exits with a non-zero status and the render
    is nonetheless reported as successful, the returned bytes begin with
    [%PDF], patched or not.  (An exit status of zero is success whatever
    was written.) *)
Theorem nonzero_exit_success_has_signature
        (WK_PATH : str) (run : World -> list str -> option bytes -> Outcome)
        (source : str) (kw : Kwargs) (w : World) (input : bytes)
        (p : CompletedProcess) (out : bytes) :
  Py.encode source = Ok input ->
  run w (WK_PATH :: cmd_args_of (py_args kw)) (Some input) = Completed p ->
  returncode p <> 0%Z ->
  fst (generate_pdf WK_PATH run source kw w) = Ok out ->
  firstn 4 out = PDF_SIGNATURE.
Proof.
  intros E R Z G.
  destruct (looks_like_url source) eqn:U.
  { unfold generate_pdf in G. rewrite U in G. discriminate. }
  rewrite (generate_pdf_run _ _ _ _ _ _ _ U E R) in G.
  destruct (failed p) eqn:F; [discriminate|].
  apply (patch_keeps_signature kw (stdout p)); [exact G|].
  apply not_failed_spec in F. unfold policy_fails in F.
  destruct (list_eq_dec Byte.byte_eq_dec (firstn 4 (stdout p)) PDF_SIGNATURE); tauto.
Qed.

Lemma nonzero_exit_success_has_signature_witness :
  firstn 4 (unlines ["%PDF-1.4 /Title (T)"; "tail"]) = PDF_SIGNATURE.
Proof.
  apply (nonzero_exit_success_has_signature (str_lit "wkhtmltopdf")
           (wk_exits 1 (unlines ["%PDF-1.4 /Title (old)"; "/Creator (wk)"; "/Producer (Qt)"; "tail"]) [])
           (str_lit "<h1>hi</h1>") (kw_title "T") [] (bytes_lit "<h1>hi</h1>")
           {| returncode := 1;
              stdout := unlines ["%PDF-1.4 /Title (old)"; "/Creator (wk)"; "/Producer (Qt)"; "tail"];
              stderr := [] |});
    [reflexivity | reflexivity | discriminate | reflexivity].
Defined.

(** C2 as stated fails: a binary that exits with status zero and writes
    nothing yields a successful render of no bytes. *)
Lemma success_without_signature :
  fst (generate_pdf (str_lit "wkhtmltopdf") (wk_exits 0 [] []) (str_lit "<h1>hi</h1>") defaults [])
    = Ok []
  /\ Py.bytes_eqb (firstn 4 []) PDF_SIGNATURE = false.
Proof. split; reflexivity. Qed.

(** C5: a source that, after its leading blanks, begins with [http] or
    [www] makes [generate_pdf] raise the error of line 75 with no subprocess
    started; for any other source that error is not raised. *)
Theorem url_source_rejected_before_spawn
        (WK_PATH : str) (run : World -> list str -> option bytes -> Outcome)
        (source : str) (kw : Kwargs) (w : World) :
  (url_like source ->
   generate_pdf WK_PATH run source kw w = (Raise url_error, w))
  /\ (~ url_like source ->
      forall msg, fst (generate_pdf WK_PATH run source kw w) <> Raise (ValueError msg)).
Proof.
  split.
  - intros U. apply looks_like_url_spec in U. unfold generate_pdf. now rewrite U.
  - intros U msg. apply not_url_like in U. unfold generate_pdf. rewrite U.
    unfold bind, render, bind, lift, execute_wk.
    destruct (Py.encode source) as [input|e] eqn:E.
    + destruct (run w (WK_PATH :: cmd_args_of (py_args kw)) (Some input)) as [p|c t];
        [|discriminate].
      destruct (failed p); [discriminate|]. cbn [fst raise ret].
      intros H. apply patch_metadata_Raise in H. destruct H as [[]|[]].
    + cbn [fst]. intros H. apply encode_Raise in E.
      injection H as ->. destruct E.
Qed.

Lemma url_source_rejected_before_spawn_witness :
  generate_pdf (str_lit "wkhtmltopdf") (wk_exits 0 (bytes_lit "%PDF") [])
    (str_lit "  www.example.com") defaults []
  = (Raise url_error, []).
Proof.
  apply (url_source_rejected_before_spawn (str_lit "wkhtmltopdf")
           (wk_exits 0 (bytes_lit "%PDF") []) (str_lit "  www.example.com") defaults []).
  exists (str_lit "  "), (str_lit "www"), (str_lit ".example.com").
  split; [reflexivity | split; [repeat constructor | now right]].
Defined.

(** C6: [get_version] returns a string, whatever [subprocess.run] and the
    decoding of its output do, and the string holds the version of pydf;
    a failure is described in place of the version of the binary. *)
Theorem get_version_never_raises
        (VERSION WK_PATH : str) (run : World -> list str -> option bytes -> Outcome)
        (exn_str : exn -> str) (w : World) :
  exists wk_version,
    fst (get_version VERSION WK_PATH run exn_str w)
    = Ok (str_lit "pydf version: " ++ VERSION ++ [Py.newline]
          ++ str_lit "wkhtmltopdf version: " ++ wk_version)
    /\ (forall c t, run w [WK_PATH; str_lit "-V"] None = Failed c t ->
        wk_version = c ++ str_lit ": " ++ exn_str (OtherError c t)).
Proof.
  unfold get_version, bind, try_except, _string_execute, bind, lift, execute_wk, ret.
  destruct (run w [WK_PATH; str_lit "-V"] None) as [p|c t].
  - destruct (Py.decode (stdout p)) as [s|e]; eexists; (split; [reflexivity | discriminate]).
  - eexists. split; [reflexivity|]. now intros c' t' [= <- <-].
Qed.

(** ** The metadata block *)

Lemma map_filter_flat_map {A B} (f : A -> B) (g : A -> bool) (l : list A) :
  map f (filter g l) = flat_map (fun x => if g x then [f x] else []) l.
Proof.
  induction l as [|x l IH]; simpl; [reflexivity|].
  destruct (g x); simpl; now rewrite IH.
Qed.

Lemma metadata_unset_block (kw : Kwargs) :
  metadata_unset kw -> metadata_of kw = [].
Proof.
  unfold metadata_unset, metadata_of. intros H.
  replace (filter (fun nv => Py.truthy (snd nv)) (fields kw)) with (@nil (str * pyval));
    [reflexivity|].
  induction H as [|nv l E _ IH]; simpl; [reflexivity|].
  now rewrite E.
Qed.

Lemma bind_lift_Ok {A} (m : M A) (w : World) :
  bind m (fun a => lift (Ok a)) w = m w.
Proof. unfold bind, lift. now destruct (m w) as [[a|e] w']. Qed.

(** C9: with none of the five metadata fields passed, the patch leaves every
    byte sequence as it is, and [generate_pdf] is the source check followed
    by the render step: what it returns is the captured output. *)
Theorem no_metadata_returns_raw_output
        (WK_PATH : str) (run : World -> list str -> option bytes -> Outcome)
        (source : str) (kw : Kwargs) (w : World) :
  metadata_unset kw ->
  (forall pdf, patch_metadata kw pdf = Ok pdf)
  /\ generate_pdf WK_PATH run source kw w
     = (if looks_like_url source then raise url_error
        else render WK_PATH run (cmd_args_of (py_args kw)) source) w
  /\ (forall input p,
      looks_like_url source = false ->
      Py.encode source = Ok input ->
      run w (WK_PATH :: cmd_args_of (py_args kw)) (Some input) = Completed p ->
      failed p = false ->
      fst (generate_pdf WK_PATH run source kw w) = Ok (stdout p))
  /\ (forall out,
      fst (generate_pdf WK_PATH run source kw w) = Ok out ->
      exists input p,
        Py.encode source = Ok input
        /\ run w (WK_PATH :: cmd_args_of (py_args kw)) (Some input) = Completed p
        /\ out = stdout p).
Proof.
  intros H.
  assert (P : forall pdf, patch_metadata kw pdf = Ok pdf).
  { intros pdf. unfold patch_metadata. now rewrite (metadata_unset_block kw H). }
  assert (G : generate_pdf WK_PATH run source kw w
              = (if looks_like_url source then raise url_error
                 else render WK_PATH run (cmd_args_of (py_args kw)) source) w).
  { unfold generate_pdf. destruct (looks_like_url source); [reflexivity|].
    rewrite <- bind_lift_Ok. unfold bind.
    destruct (render WK_PATH run (cmd_args_of (py_args kw)) source w) as [[a|e] w'];
      [|reflexivity].
    unfold lift. now rewrite P. }
  split; [exact P|]. split; [exact G|]. split.
  - intros input p U E R F. rewrite G, U, (render_run _ _ _ _ _ _ _ E R), F. reflexivity.
  - intros out. rewrite G. destruct (looks_like_url source); [discriminate|].
    unfold render, bind, lift, execute_wk.
    destruct (Py.encode source) as [input|] eqn:E; [|discriminate].
    destruct (run w (WK_PATH :: cmd_args_of (py_args kw)) (Some input)) as [p|] eqn:R;
      [|discriminate].
    destruct (failed p); [discriminate|]. intros [= <-].
    exists input, p. now repeat split.
Qed.

Lemma no_metadata_returns_raw_output_witness :
  fst (generate_pdf (str_lit "wkhtmltopdf")
         (wk_exits 0 (unlines ["%PDF-1.4 /Title (old)"; "/Creator (wk)"; "/Producer (Qt)"]) [])
         (str_lit "<h1>hi</h1>") defaults [])
  = Ok (unlines ["%PDF-1.4 /Title (old)"; "/Creator (wk)"; "/Producer (Qt)"]).
Proof.
  destruct (no_metadata_returns_raw_output (str_lit "wkhtmltopdf")
              (wk_exits 0 (unlines ["%PDF-1.4 /Title (old)"; "/Creator (wk)"; "/Producer (Qt)"]) [])
              (str_lit "<h1>hi</h1>") defaults [] ltac:(repeat constructor))
    as (_ & _ & H & _).
  apply (H (bytes_lit "<h1>hi</h1>")
           {| returncode := 0;
              stdout := unlines ["%PDF-1.4 /Title (old)"; "/Creator (wk)"; "/Producer (Qt)"];
              stderr := [] |});
    reflexivity.
Defined.

Lemma truthy_drop_empty (value : pyval) :
  Py.truthy (drop_empty value) = Py.truthy value.
Proof. now destruct value as [|b|z|[|c s]]. Qed.

Lemma drop_empty_truthy (value : pyval) :
  Py.truthy value = true -> drop_empty value = value.
Proof. now destruct value as [|b|z|[|c s]]. Qed.

Lemma drop_empty_lines (l : list (str * pyval)) :
  map (fun nv => field_line (fst nv) (snd nv))
      (filter (fun nv => Py.truthy (snd nv))
              (map (fun nv => (fst nv, drop_empty (snd nv))) l))
  = map (fun nv => field_line (fst nv) (snd nv))
        (filter (fun nv => Py.truthy (snd nv)) l).
Proof.
  induction l as [|[name value] l IH]; [reflexivity|].
  cbn [map filter fst snd]. rewrite truthy_drop_empty.
  destruct (Py.truthy value) eqn:T; [|exact IH].
  cbn [map fst snd]. now rewrite IH, (drop_empty_truthy value T).
Qed.

Lemma drop_empty_block (kw : Kwargs) :
  metadata_of (drop_empty_metadata kw) = metadata_of kw.
Proof.
  unfold metadata_of.
  change (fields (drop_empty_metadata kw))
    with (map (fun nv => (fst nv, drop_empty (snd nv))) (fields kw)).
  now rewrite drop_empty_lines.
Qed.

Lemma empty_fields_block (kw : Kwargs) :
  Forall (fun nv => snd nv = PNone \/ snd nv = PStr []) (fields kw) ->
  metadata_of kw = [].
Proof.
  unfold metadata_of. intros H.
  replace (filter (fun nv => Py.truthy (snd nv)) (fields kw)) with (@nil (str * pyval));
    [reflexivity|].
  induction H as [|nv l E _ IH]; simpl; [reflexivity|].
  now destruct E as [-> | ->].
Qed.

(** C10: a metadata field that is the empty string counts as one that was
    not passed: turning every such field into [None] changes neither the
    block, nor the patch, nor the run of [generate_pdf]; and when every field
    is [None] or the empty string, the patch returns its input. *)
Theorem empty_string_is_unset
        (WK_PATH : str) (run : World -> list str -> option bytes -> Outcome)
        (source : str) (kw : Kwargs) (w : World) :
  metadata_of (drop_empty_metadata kw) = metadata_of kw
  /\ (forall pdf, patch_metadata (drop_empty_metadata kw) pdf = patch_metadata kw pdf)
  /\ generate_pdf WK_PATH run source (drop_empty_metadata kw) w
     = generate_pdf WK_PATH run source kw w
  /\ (Forall (fun nv => snd nv = PNone \/ snd nv = PStr []) (fields kw) ->
      metadata_of kw = []
      /\ forall pdf, patch_metadata kw pdf = Ok pdf).
Proof.
  assert (P : forall pdf, patch_metadata (drop_empty_metadata kw) pdf = patch_metadata kw pdf).
  { intros pdf. unfold patch_metadata. now rewrite drop_empty_block. }
  split; [apply drop_empty_block|]. split; [exact P|]. split.
  - unfold generate_pdf.
    change (py_args (drop_empty_metadata kw)) with (py_args kw).
    destruct (looks_like_url source); [reflexivity|].
    unfold bind.
    destruct (render WK_PATH run (cmd_args_of (py_args kw)) source w) as [[a|e] w'];
      [|reflexivity].
    unfold lift. now rewrite P.
  - intros H. pose proof (empty_fields_block kw H) as E. split; [exact E|].
    intros pdf. unfold patch_metadata. now rewrite E.
Qed.

Lemma empty_string_is_unset_witness :
  metadata_of (set_metadata (PStr []) PNone (PStr []) PNone PNone defaults) = []
  /\ patch_metadata (set_metadata (PStr []) PNone (PStr []) PNone PNone defaults)
       (unlines ["/Title (old)"; "/Creator (wk)"; "/Producer (Qt)"])
     = Ok (unlines ["/Title (old)"; "/Creator (wk)"; "/Producer (Qt)"]).
Proof.
  destruct (empty_string_is_unset (str_lit "wkhtmltopdf") (wk_exits 0 [] []) []
              (set_metadata (PStr []) PNone (PStr []) PNone PNone defaults) [])
    as (_ & _ & _ & H).
  assert (F : Forall (fun nv => snd nv = PNone \/ snd nv = PStr [])
                (fields (set_metadata (PStr []) PNone (PStr []) PNone PNone defaults)))
    by (repeat constructor; simpl; auto).
  destruct (H F) as [H1 H2]. split; [exact H1 | apply H2].
Defined.

Lemma join_nonempty (sep c : str) (x : N) (parts : list str) :
  Py.join sep ((x :: c) :: parts) <> [].
Proof. destruct parts; discriminate. Qed.

Lemma truthy_field_block (kw : Kwargs) :
  (exists nv, In nv (fields kw) /\ Py.truthy (snd nv) = true) ->
  metadata_of kw <> [].
Proof.
  intros (nv & Hin & T). unfold metadata_of.
  assert (F : In nv (filter (fun nv => Py.truthy (snd nv)) (fields kw)))
    by (apply filter_In; now split).
  destruct (filter (fun nv => Py.truthy (snd nv)) (fields kw)) as [|nv' l]; [destruct F|].
  cbn [map]. apply join_nonempty.
Qed.

Lemma block_lines (kw : Kwargs) :
  metadata_of kw =
  Py.join [Py.newline]
    (optional_line "Title" (title kw) ++ optional_line "Author" (author kw)
     ++ optional_line "Subject" (subject kw) ++ optional_line "Creator" (creator kw)
     ++ optional_line "Producer" (producer kw)).
Proof.
  unfold metadata_of, fields, optional_line. cbn [filter snd fst].
  destruct (Py.truthy (title kw)), (Py.truthy (author kw)), (Py.truthy (subject kw)),
    (Py.truthy (creator kw)), (Py.truthy (producer kw)); reflexivity.
Qed.

Lemma encoded_block_literal (kw : Kwargs) (repl : bytes) :
  Py.encode (metadata_of kw) = Ok repl ->
  ~ In 92%N (metadata_of kw) -> ~ In Re.BACKSLASH repl.
Proof. intros E H B. apply H. now apply (encode_backslash _ _ E). Qed.

(** The patch with a block that is taken as it is. *)
Lemma patch_literal (kw : Kwargs) (pdf repl : bytes) :
  metadata_of kw <> [] ->
  Py.encode (metadata_of kw) = Ok repl ->
  ~ In 92%N (metadata_of kw) ->
  patch_metadata kw pdf =
  Ok match Re.search PATTERN pdf with
     | Some (before, _, after) => before ++ repl ++ after
     | None => pdf
     end.
Proof.
  intros N E B. unfold patch_metadata.
  destruct (metadata_of kw) as [|c m] eqn:M; [contradiction|].
  rewrite E. cbn [rbind]. apply sub_literal.
  apply (encoded_block_literal kw); rewrite M; assumption.
Qed.

(** C3, amended: when some metadata field has a value that counts as set and
    the block is plain text without a backslash, the patch replaces one
    region by the block: the leftmost span made of [/Title] with the rest
    of its line, exactly one further line, and a line that starts with
    [/Producer], taken to the end of that line; when the document holds no
    such span it is returned as it is. *)
Theorem patch_replaces_leftmost_span (kw : Kwargs) (pdf repl : bytes) :
  (exists nv, In nv (fields kw) /\ Py.truthy (snd nv) = true) ->
  Py.encode (metadata_of kw) = Ok repl ->
  ~ In 92%N (metadata_of kw) ->
  (exists before m after,
      pdf = before ++ m ++ after
      /\ is_span m /\ at_line_end after
      /\ (forall b' m' a', pdf = b' ++ m' ++ a' -> is_span m' ->
          List.length before <= List.length b')
      /\ patch_metadata kw pdf = Ok (before ++ repl ++ after))
  \/ ((forall b' m' a', pdf = b' ++ m' ++ a' -> ~ is_span m')
      /\ patch_metadata kw pdf = Ok pdf).
Proof.
  intros T E B. rewrite (patch_literal kw pdf repl (truthy_field_block kw T) E B).
  pose proof (search_PATTERN pdf) as S.
  destruct (Re.search PATTERN pdf) as [[[before m] after]|].
  - left. exists before, m, after. destruct S as (S1 & S2 & S3 & S4). now repeat split.
  - right. now split.
Qed.

Lemma patch_replaces_leftmost_span_witness :
  (exists before m after,
      unlines ["%PDF-1.4 /Title (old)"; "/Creator (wk)"; "/Producer (Qt)"; "tail"]
      = before ++ m ++ after
      /\ is_span m /\ at_line_end after
      /\ (forall b' m' a',
          unlines ["%PDF-1.4 /Title (old)"; "/Creator (wk)"; "/Producer (Qt)"; "tail"]
          = b' ++ m' ++ a' -> is_span m' -> List.length before <= List.length b')
      /\ patch_metadata (kw_title "T")
           (unlines ["%PDF-1.4 /Title (old)"; "/Creator (wk)"; "/Producer (Qt)"; "tail"])
         = Ok (before ++ bytes_lit "/Title (T)" ++ after))
  \/ ((forall b' m' a',
       unlines ["%PDF-1.4 /Title (old)"; "/Creator (wk)"; "/Producer (Qt)"; "tail"]
       = b' ++ m' ++ a' -> ~ is_span m')
      /\ patch_metadata (kw_title "T")
           (unlines ["%PDF-1.4 /Title (old)"; "/Creator (wk)"; "/Producer (Qt)"; "tail"])
         = Ok (unlines ["%PDF-1.4 /Title (old)"; "/Creator (wk)"; "/Producer (Qt)"; "tail"])).
Proof.
  apply (patch_replaces_leftmost_span (kw_title "T")).
  - exists (str_lit "Title", PStr (str_lit "T")). split; [now left | reflexivity].
  - reflexivity.
  - vm_compute. intuition discriminate.
Defined.

(** C3 as stated fails: with two lines between the [/Title] line and the
    [/Producer] line, or with none, the document is returned as it is,
    where the wording of the claim has the whole region replaced. *)
Lemma intervening_lines_counterexample :
  patch_metadata (kw_title "T")
    (unlines ["/Title (old)"; "/Author (me)"; "/Creator (wk)"; "/Producer (Qt)"; "tail"])
  = Ok (unlines ["/Title (old)"; "/Author (me)"; "/Creator (wk)"; "/Producer (Qt)"; "tail"])
  /\ spec_patch (bytes_lit "/Title (T)")
       (unlines ["/Title (old)"; "/Author (me)"; "/Creator (wk)"; "/Producer (Qt)"; "tail"])
     = unlines ["/Title (T)"; "tail"]
  /\ patch_metadata (kw_title "T") (unlines ["/Title (old)"; "/Producer (Qt)"; "tail"])
     = Ok (unlines ["/Title (old)"; "/Producer (Qt)"; "tail"])
  /\ spec_patch (bytes_lit "/Title (T)") (unlines ["/Title (old)"; "/Producer (Qt)"; "tail"])
     = unlines ["/Title (T)"; "tail"].
Proof. repeat split. Qed.

(** ** Counting the block *)

Lemma occurrences_app (block before after : bytes) :
  1 <= occurrences block (before ++ block ++ after).
Proof.
  induction before as [|c before IH].
  - cbn [app]. assert (P : is_prefix block (block ++ after) = true)
      by (apply is_prefix_spec; eauto).
    destruct (block ++ after); cbn [occurrences]; rewrite P; lia.
  - cbn [app occurrences]. lia.
Qed.

(** C8, amended: when the patch changes a document and the block is plain
    text without a backslash, the block is one line [/<Name> (<value>)] for
    each field that counts as set, in the order Title, Author, Subject,
    Creator, Producer, joined by newlines; the output is the input with one
    span replaced by the block, so the block occurs in it (at least once),
    and the lengths differ by the length of the block less that of the
    span. *)
Theorem patch_changes_one_span (kw : Kwargs) (pdf out : bytes) :
  patch_metadata kw pdf = Ok out ->
  out <> pdf ->
  ~ In 92%N (metadata_of kw) ->
  metadata_of kw =
    Py.join [Py.newline]
      (optional_line "Title" (title kw) ++ optional_line "Author" (author kw)
       ++ optional_line "Subject" (subject kw) ++ optional_line "Creator" (creator kw)
       ++ optional_line "Producer" (producer kw))
  /\ exists block before m after,
      Py.encode (metadata_of kw) = Ok block
      /\ pdf = before ++ m ++ after
      /\ is_span m
      /\ out = before ++ block ++ after
      /\ 1 <= occurrences block out
      /\ (Z.of_nat (List.length out) - Z.of_nat (List.length pdf)
          = Z.of_nat (List.length block) - Z.of_nat (List.length m))%Z.
Proof.
  intros P D B. split; [apply block_lines|].
  assert (N : metadata_of kw <> []).
  { intros E. unfold patch_metadata in P. rewrite E in P. congruence. }
  destruct (Py.encode (metadata_of kw)) as [block|e] eqn:E.
  2:{ unfold patch_metadata in P. destruct (metadata_of kw); [contradiction|].
      rewrite E in P. discriminate. }
  rewrite (patch_literal kw pdf block N E B) in P.
  pose proof (search_PATTERN pdf) as S.
  destruct (Re.search PATTERN pdf) as [[[before m] after]|]; [|congruence].
  destruct S as (S1 & S2 & _). injection P as <-.
  exists block, before, m, after. repeat split; try assumption.
  - apply occurrences_app.
  - rewrite S1, !length_app. lia.
Qed.

Lemma patch_changes_one_span_witness :
  metadata_of (kw_title "T") =
    Py.join [Py.newline]
      (optional_line "Title" (title (kw_title "T")) ++ optional_line "Author" (author (kw_title "T"))
       ++ optional_line "Subject" (subject (kw_title "T")) ++ optional_line "Creator" (creator (kw_title "T"))
       ++ optional_line "Producer" (producer (kw_title "T")))
  /\ exists block before m after,
      Py.encode (metadata_of (kw_title "T")) = Ok block
      /\ unlines ["%PDF-1.4 /Title (old)"; "/Creator (wk)"; "/Producer (Qt)"; "tail"]
         = before ++ m ++ after
      /\ is_span m
      /\ unlines ["%PDF-1.4 /Title (T)"; "tail"] = before ++ block ++ after
      /\ 1 <= occurrences block (unlines ["%PDF-1.4 /Title (T)"; "tail"])
      /\ (Z.of_nat (List.length (unlines ["%PDF-1.4 /Title (T)"; "tail"]))
          - Z.of_nat (List.length (unlines ["%PDF-1.4 /Title (old)"; "/Creator (wk)"; "/Producer (Qt)"; "tail"]))
          = Z.of_nat (List.length block) - Z.of_nat (List.length m))%Z.
Proof.
  apply (patch_changes_one_span (kw_title "T")).
  - reflexivity.
  - discriminate.
  - vm_compute. intuition discriminate.
Defined.

(** C8 as stated fails: a document that already holds the text of the block
    outside the span holds it twice after the patch. *)
Lemma block_twice_counterexample :
  patch_metadata (kw_title "T")
    (unlines ["/Title (old)"; "/Creator (wk)"; "/Producer (Qt)"; "/Title (T)"])
  = Ok (unlines ["/Title (T)"; "/Title (T)"])
  /\ Py.encode (metadata_of (kw_title "T")) = Ok (bytes_lit "/Title (T)")
  /\ occurrences (bytes_lit "/Title (T)") (unlines ["/Title (T)"; "/Title (T)"]) = 2
  /\ Py.bytes_eqb (unlines ["/Title (T)"; "/Title (T)"])
       (unlines ["/Title (old)"; "/Creator (wk)"; "/Producer (Qt)"; "/Title (T)"])
     = false.
Proof. repeat split. Qed.

(** ** The argument list *)

Lemma add_arg_tokens (cmd_args : list str) (name : str) (value : pyval) :
  add_arg cmd_args name value = cmd_args ++ option_tokens name value.
Proof.
  unfold add_arg, option_tokens.
  destruct (Py.in_set value [PNone; PBool false]); [now rewrite app_nil_r|].
  now destruct (Py.is_True value).
Qed.

(** The loop of lines 94-101 gives each entry its own tokens, in order. *)
Lemma cmd_args_of_tokens (args : Py.dict) :
  cmd_args_of args =
  flat_map (fun nv => option_tokens (fst nv) (snd nv)) args ++ [str_lit "-"; str_lit "-"].
Proof.
  unfold cmd_args_of. f_equal.
  rewrite <- (app_nil_l (flat_map _ args)). generalize (@nil str).
  induction args as [|nv args IH]; intros acc; simpl.
  - now rewrite app_nil_r.
  - now rewrite IH, add_arg_tokens, <- app_assoc.
Qed.

(** What an option gives, value by value: nothing for [None], [False] and
    the integer zero; the flag for [True]; the flag and the text for a
    string and for any other integer. *)
Lemma option_tokens_cases (name : str) :
  option_tokens name PNone = []
  /\ option_tokens name (PBool false) = []
  /\ option_tokens name (PBool true) = [arg_name name]
  /\ (forall s, option_tokens name (PStr s) = [arg_name name; s])
  /\ (forall z, z <> 0%Z ->
      option_tokens name (PInt z) = [arg_name name; Py.str_of (PInt z)])
  /\ option_tokens name (PInt 0) = [].
Proof.
  repeat split; try reflexivity.
  intros z H. unfold option_tokens. cbn.
  destruct (Z.eqb_spec z 0); [contradiction | reflexivity].
Qed.

(** C4: at [image_quality=0] the code gives no token for the option, where
    the claim (and the docstring of [generate_pdf]) has the flag and
    [str(0)]; at [image_quality=1] it gives both. *)
Theorem zero_option_gives_no_token :
  cmd_args_of (py_args (kw_image_quality (PInt 0))) = [str_lit "-"; str_lit "-"]
  /\ Py.str_of (PInt 0) = str_lit "0"
  /\ cmd_args_of (py_args (kw_image_quality (PInt 1)))
     = [str_lit "--image-quality"; str_lit "1"; str_lit "-"; str_lit "-"].
Proof. repeat split. Qed.

(** C7: with [title='\1'] and a document without the anchor span, the patch
    raises where the claim has it return the document: the block is the
    replacement template of [re.sub], which is parsed before the search. *)
Theorem backslash_title_raises_without_span :
  Re.search PATTERN (bytes_lit "%PDF-1.4") = None
  /\ patch_metadata (kw_title "\1") (bytes_lit "%PDF-1.4")
     = Raise (re_error "invalid group reference")
  /\ fst (generate_pdf (str_lit "wkhtmltopdf") (wk_exits 0 (bytes_lit "%PDF-1.4") [])
            (str_lit "<h1>hi</h1>") (kw_title "\1") [])
     = Raise (re_error "invalid group reference")
  /\ patch_metadata (kw_title "T") (bytes_lit "%PDF-1.4") = Ok (bytes_lit "%PDF-1.4").
Proof. repeat split. Qed.
